(** * FilesystemAdapter: the storage adapters of the OCPP client

    A shallow embedding of [src/ArduinoOcpp/Core/FilesystemAdapter.cpp].
    The translation unit offers two implementations of the abstract
    [FilesystemAdapter] / [FileAdapter] interfaces, selected at compile
    time through [AO_USE_FILEAPI]:

    - the Arduino adapter, on top of the Arduino [FS] object ([LITTLEFS]
      or [SPIFFS], bound to the macro [USE_FS]);
    - the ESP-IDF adapter, on top of the C library ([fopen], [fread],
      [fwrite], [fseek], [unlink], [::stat]) and [esp_spiffs].

    The platform libraries are not part of the repository.  They are taken
    as parameters: a type class per platform lists the calls the adapters
    make, each call being a function of an explicit platform state (the
    flash contents, the table of open files, the mount state).  The adapter
    code is written once over these classes, so every statement below holds
    for whatever the platform does. *)

From Stdlib Require Import ZArith Lia.
From stdpp Require Import base option gmap strings list.

Local Open Scope Z_scope.

(** ** Machine integers

    Both targets (ESP8266, ESP32) are ILP32: [int], [long] and [size_t]
    are 32 bits wide.  Integers are kept in [Z]; a conversion to an
    unsigned or signed type is written out as its wrap-around. *)

Module Machine.

Definition SIZE_BITS : Z := 32.
Definition SIZE_MAX : Z := 2 ^ SIZE_BITS - 1.

(** Conversion to [size_t]: reduction modulo [2^32]. *)
Definition to_size_t (z : Z) : Z := z mod 2 ^ SIZE_BITS.

(** Conversion to [long] (and [int]): two's complement wrap-around. *)
Definition to_long (z : Z) : Z :=
  (z + 2 ^ (SIZE_BITS - 1)) mod 2 ^ SIZE_BITS - 2 ^ (SIZE_BITS - 1).

End Machine.

(** ** Caller memory

    [stat] reports the file size through an out-parameter [size_t *size].
    The caller's memory is a finite map from addresses to the [size_t]
    objects that live there.  A store through a pointer that addresses no
    object has no defined behaviour; it is modelled as a fault ([None]). *)

Module Memory.

Abbreviation mem := (gmap Z Z).

Definition store (p v : Z) (m : mem) : option mem :=
  match m !! p with
  | Some _ => Some (<[p := v]> m)
  | None => None
  end.

End Memory.

(** ** Configuration

    [FilesystemOpt] is declared in [ConfigurationOptions.h], outside this
    translation unit.  The adapters only call its three observers, so the
    option object is the record of their answers. *)

Record FilesystemOpt := {
  accessAllowed : bool;
  mustMount : bool;
  formatOnFail : bool
}.


(** The diagnostic macros [AO_DBG_ERR] and [AO_DBG_DEBUG] print to the
    console and have no effect on any value an adapter returns or stores;
    they are left out of the embedding. *)

(** ** The Arduino adapter

    Compiled when [AO_USE_FILEAPI] is [ARDUINO_LITTLEFS] (the default on
    ESP32) or [ARDUINO_SPIFFS] (the default elsewhere). *)

Module Arduino.

Inductive FileApi := ARDUINO_LITTLEFS | ARDUINO_SPIFFS.

(** The calls made on [USE_FS] and on [File] objects.  [W] is the state of
    the platform, [File] the type of Arduino [File] values. *)
Class ArduinoFS (W File : Type) := {
  (** [LITTLEFS.begin(formatOnFail)] *)
  FS_begin : bool -> W -> bool * W;
  (** [cfg.setAutoFormat(b); SPIFFS.setConfig(cfg)] *)
  FS_setConfig : bool -> W -> W;
  (** [SPIFFS.begin()] *)
  FS_begin0 : W -> bool * W;
  (** [USE_FS.end()] *)
  FS_end : W -> W;
  (** [USE_FS.exists(path)] *)
  FS_exists : string -> W -> bool;
  (** [USE_FS.open(path, mode)] *)
  FS_open : string -> string -> W -> File * W;
  (** [USE_FS.remove(path)] *)
  FS_remove : string -> W -> bool * W;
  (** [File::operator bool] *)
  File_bool : File -> W -> bool;
  (** [f.isFile()] *)
  File_isFile : File -> W -> bool;
  (** [f.size()] *)
  File_size : File -> W -> Z;
  (** [f.close()] *)
  File_close : File -> W -> W
}.

(** [class ArduinoFileAdapter]: owns the [File].  Its members [read],
    [write] and [seek] are declared in the class but this translation unit
    gives them no body. *)
Record ArduinoFileAdapter (File : Type) := { file : File }.
Arguments file {File} _.

(** [class ArduinoFilesystemAdapter] *)
Record ArduinoFilesystemAdapter := {
  valid : bool;
  config : FilesystemOpt
}.

Section Adapter.
Context {W File : Type} `{!ArduinoFS W File}.
Variable AO_USE_FILEAPI : FileApi.

(** Destructor of [ArduinoFileAdapter]: the file is closed when the [File]
    still tests as valid. *)
Definition ArduinoFileAdapter_delete (a : ArduinoFileAdapter File) (w : W)
  : W :=
  if File_bool (file a) w then File_close (file a) w else w.

(** Constructor: [valid] starts as [true] and is cleared when a required
    mount fails. *)
Definition ArduinoFilesystemAdapter_new (config : FilesystemOpt) (w : W)
  : ArduinoFilesystemAdapter * W :=
  let valid := true in
  if mustMount config then
    match AO_USE_FILEAPI with
    | ARDUINO_LITTLEFS =>
        let '(ok, w1) := FS_begin (formatOnFail config) w in
        if negb ok
        then ({| valid := false; config := config |}, w1)
        else ({| valid := valid; config := config |}, w1)
    | ARDUINO_SPIFFS =>
        let w1 := FS_setConfig (formatOnFail config) w in
        let '(ok, w2) := FS_begin0 w1 in
        if negb ok
        then ({| valid := false; config := config |}, w2)
        else ({| valid := valid; config := config |}, w2)
    end
  else ({| valid := valid; config := config |}, w).

(** Destructor. *)
Definition ArduinoFilesystemAdapter_delete (a : ArduinoFilesystemAdapter)
  (w : W) : W :=
  if mustMount (config a) then FS_end w else w.

(** [operator bool] *)
Definition ArduinoFilesystemAdapter_bool (a : ArduinoFilesystemAdapter)
  : bool := valid a.

(** [int stat(const char *path, size_t *size)].

    [size] is the pointer the caller passes and [m] the caller's memory.
    The statement [size = f.size();] assigns to the parameter [size]
    itself: the local pointer changes, the object it pointed to does not.
    The locals [size] and [status] are threaded as a pair. *)
Definition stat (path : string) (size : Z) (m : Memory.mem) (w : W)
  : Z * Memory.mem * W :=
  if negb (FS_exists path w) then (-1, m, w)
  else
    let '(f, w1) := FS_open path "r" w in
    if negb (File_bool f w1) then (-1, m, w1)
    else
      let status := -1 in
      let '(size, status) :=
        if File_isFile f w1 then (File_size f w1, 0) else (size, status) in
      let w2 := File_close f w1 in
      (status, m, w2).

(** [std::unique_ptr<FileAdapter> open(const char *fn, const char *mode)];
    [nullptr] is [None]. *)
Definition open (fn mode : string) (w : W)
  : option (ArduinoFileAdapter File) * W :=
  let '(file, w1) := FS_open fn mode w in
  if File_bool file w1 && File_isFile file w1
  then (Some {| file := file |}, w1)
  else (None, w1).

(** [bool remove(const char *fn)] *)
Definition remove (fn : string) (w : W) : bool * W := FS_remove fn w.

(** [makeDefaultFilesystemAdapter(FilesystemOpt config)].  When the fresh
    adapter is not valid the function returns [nullptr] and the
    [unique_ptr] that held the adapter destroys it. *)
Definition makeDefaultFilesystemAdapter (config : FilesystemOpt) (w : W)
  : option ArduinoFilesystemAdapter * W :=
  if negb (accessAllowed config) then (None, w)
  else
    let '(fs, w1) := ArduinoFilesystemAdapter_new config w in
    if ArduinoFilesystemAdapter_bool fs
    then (Some fs, w1)
    else (None, ArduinoFilesystemAdapter_delete fs w1).

End Adapter.

End Arduino.

(** ** The ESP-IDF adapter

    Compiled when [AO_USE_FILEAPI] is [ESPIDF_SPIFFS]. *)

Module EspIdf.

(** [struct stat]: the adapter reads the field [st_size] only. *)
Record struct_stat := { st_size : Z }.

Record esp_vfs_spiffs_conf_t := {
  base_path : string;
  partition_label : string;
  max_files : Z;
  format_if_mount_failed : bool
}.

(** [esp_err_t] values the factory compares against. *)
Definition ESP_OK : Z := 0.
Definition ESP_FAIL : Z := -1.
Definition ESP_ERR_NOT_FOUND : Z := 261.

(** The C library and ESP-IDF calls made by the adapter.  [W] is the state
    of the platform, [FILE] the type of non-null stream pointers; a
    [FILE *] is an [option FILE] with [None] for [NULL]. *)
Class EspIdfFS (W FILE : Type) := {
  (** [::stat(path, &st)]: the return value and the contents of [st] *)
  sys_stat : string -> W -> Z * struct_stat;
  (** [fopen(fn, mode)] *)
  c_fopen : string -> string -> W -> option FILE * W;
  (** [fclose(file)] *)
  c_fclose : FILE -> W -> Z * W;
  (** [fread(buf, size, nmemb, file)]: the count of elements and the bytes
      stored in [buf] *)
  c_fread : FILE -> Z -> Z -> W -> Z * list Byte.byte * W;
  (** [fwrite(buf, size, nmemb, file)]: the count of elements *)
  c_fwrite : FILE -> list Byte.byte -> Z -> Z -> W -> Z * W;
  (** [fseek(file, offset, SEEK_SET)] *)
  c_fseek : FILE -> Z -> W -> Z * W;
  (** [fgetc(file)] *)
  c_fgetc : FILE -> W -> Z * W;
  (** [unlink(fn)] *)
  c_unlink : string -> W -> Z * W;
  (** [esp_vfs_spiffs_register(&conf)] *)
  esp_vfs_spiffs_register : esp_vfs_spiffs_conf_t -> W -> Z * W;
  (** [esp_vfs_spiffs_unregister(label)] *)
  esp_vfs_spiffs_unregister : string -> W -> W
}.

(** [class EspIdfFileAdapter]: owns the stream. *)
Record EspIdfFileAdapter (FILE : Type) := { file : FILE }.
Arguments file {FILE} _.

(** [class EspIdfFilesystemAdapter] *)
Record EspIdfFilesystemAdapter := { config : FilesystemOpt }.

Section Adapter.
Context {W FILE : Type} `{!EspIdfFS W FILE}.

(** The macro [AO_FILENAME_PREFIX] comes from a header outside this
    translation unit. *)
Variable AO_FILENAME_PREFIX : string.

(** *** File handles *)

(** Destructor. *)
Definition EspIdfFileAdapter_delete (a : EspIdfFileAdapter FILE) (w : W)
  : W := snd (c_fclose (file a) w).

(** [size_t read(char *buf, size_t len)]: the count and the bytes left in
    [buf]. *)
Definition read (a : EspIdfFileAdapter FILE) (len : Z) (w : W)
  : Z * list Byte.byte * W := c_fread (file a) 1 len w.

(** [size_t write(const char *buf, size_t len)] *)
Definition write (a : EspIdfFileAdapter FILE) (buf : list Byte.byte)
  (len : Z) (w : W) : Z * W := c_fwrite (file a) buf 1 len w.

(** [size_t seek(size_t offset)]: [offset] is converted to the [long]
    parameter of [fseek], and the [int] that [fseek] returns to the
    [size_t] result. *)
Definition seek (a : EspIdfFileAdapter FILE) (offset : Z) (w : W)
  : Z * W :=
  let '(r, w1) := c_fseek (file a) (Machine.to_long offset) w in
  (Machine.to_size_t r, w1).

(** [int read()] *)
Definition read0 (a : EspIdfFileAdapter FILE) (w : W) : Z * W :=
  c_fgetc (file a) w.

(** *** The filesystem *)

(** Destructor. *)
Definition EspIdfFilesystemAdapter_delete (a : EspIdfFilesystemAdapter)
  (w : W) : W :=
  if mustMount (config a) then esp_vfs_spiffs_unregister "ao" w else w.

(** [int stat(const char *path, size_t *size)].  The store [*size = ...]
    happens only when [::stat] returned [0]; through a pointer to no
    object it faults ([None]). *)
Definition stat (path : string) (size : Z) (m : Memory.mem) (w : W)
  : option (Z * Memory.mem * W) :=
  let '(ret, st) := sys_stat path w in
  if decide (ret = 0) then
    match Memory.store size (Machine.to_size_t (st_size st)) m with
    | Some m1 => Some (ret, m1, w)
    | None => None
    end
  else Some (ret, m, w).

(** [std::unique_ptr<FileAdapter> open(const char *fn, const char *mode)] *)
Definition open (fn mode : string) (w : W)
  : option (EspIdfFileAdapter FILE) * W :=
  let '(file, w1) := c_fopen fn mode w in
  match file with
  | Some f => (Some {| file := f |}, w1)
  | None => (None, w1)
  end.

(** [bool remove(const char *fn)] *)
Definition remove (fn : string) (w : W) : bool * W :=
  let '(r, w1) := c_unlink fn w in (bool_decide (r = 0), w1).

(** [makeDefaultFilesystemAdapter(FilesystemOpt config)].  The three-way
    test on a failed [ret] only selects the diagnostic that is printed. *)
Definition makeDefaultFilesystemAdapter (config : FilesystemOpt) (w : W)
  : option EspIdfFilesystemAdapter * W :=
  if negb (accessAllowed config) then (None, w)
  else
    let mounted := true in
    let '(mounted, w1) :=
      if mustMount config then
        let mounted := false in
        let conf := {| base_path := AO_FILENAME_PREFIX;
                       partition_label := "ao";
                       max_files := 5;
                       format_if_mount_failed := formatOnFail config |} in
        let '(ret, w1) := esp_vfs_spiffs_register conf w in
        if decide (ret = ESP_OK) then (true, w1) else (mounted, w1)
      else (mounted, w) in
    if mounted
    then (Some {| config := config |}, w1)
    else (None, w1).

End Adapter.

End EspIdf.

(** ** A reference platform

    An in-memory flash partition that implements both platform classes.
    It serves to run the adapters on concrete inputs: paths map to regular
    files or directories, streams are entries of an open-file table that
    holds at most [MAX_STREAMS] entries, and mounting succeeds when the
    partition is sound or formatting is permitted. *)

Module Flash.

Inductive node :=
  | Reg (data : list Byte.byte)
  | Dir.

Record stream := { s_path : string; s_mode : string; s_pos : nat }.

Record world := {
  disk : gmap string node;
  partition_ok : bool;
  autoformat : bool;
  mounted : bool;
  streams : list stream
}.

Definition MAX_STREAMS : nat := 5.

Definition set_disk (d : gmap string node) (w : world) : world :=
  {| disk := d; partition_ok := partition_ok w; autoformat := autoformat w;
     mounted := mounted w; streams := streams w |}.

Definition set_autoformat (b : bool) (w : world) : world :=
  {| disk := disk w; partition_ok := partition_ok w; autoformat := b;
     mounted := mounted w; streams := streams w |}.

Definition set_mounted (b : bool) (w : world) : world :=
  {| disk := disk w; partition_ok := partition_ok w;
     autoformat := autoformat w; mounted := b; streams := streams w |}.

Definition set_streams (l : list stream) (w : world) : world :=
  {| disk := disk w; partition_ok := partition_ok w;
     autoformat := autoformat w; mounted := mounted w; streams := l |}.

(** Formatting wipes the partition and makes it sound. *)
Definition format (w : world) : world :=
  {| disk := ∅; partition_ok := true; autoformat := autoformat w;
     mounted := mounted w; streams := [] |}.

(** Mounting, with or without permission to format a broken partition. *)
Definition mount (fmt : bool) (w : world) : bool * world :=
  if partition_ok w then (true, set_mounted true w)
  else if fmt then (true, set_mounted true (format w))
  else (false, w).

Definition is_reg (n : option node) : bool :=
  match n with Some (Reg _) => true | _ => false end.

Definition reg_size (n : option node) : Z :=
  match n with Some (Reg d) => Z.of_nat (length d) | _ => 0 end.

(** A mode string is a base, ["r"], ["w"] or ["a"], that may be followed
    by ["+"] or ["b"]. *)
Definition mode_base (mode : string) : string :=
  match mode with
  | String c _ => String c EmptyString
  | EmptyString => EmptyString
  end.

Definition mode_plus (mode : string) : bool :=
  match String.index 0 "+" mode with Some _ => true | None => false end.

Definition can_read (mode : string) : bool :=
  String.eqb (mode_base mode) "r" || mode_plus mode.

Definition can_write (mode : string) : bool :=
  String.eqb (mode_base mode) "w" || String.eqb (mode_base mode) "a"
  || (String.eqb (mode_base mode) "r" && mode_plus mode).

Definition appends (mode : string) : bool := String.eqb (mode_base mode) "a".

(** Opening by mode: base ["r"] needs an existing entry; bases ["w"] and
    ["a"] create a missing file and refuse a directory, and ["w"]
    truncates; any other mode string is refused. *)
Definition open_entry (p mode : string) (w : world) : bool * world :=
  if String.eqb (mode_base mode) "r" then
    (bool_decide (is_Some (disk w !! p)), w)
  else if String.eqb (mode_base mode) "w" then
    match disk w !! p with
    | Some Dir => (false, w)
    | _ => (true, set_disk (<[p := Reg []]> (disk w)) w)
    end
  else if String.eqb (mode_base mode) "a" then
    match disk w !! p with
    | Some Dir => (false, w)
    | Some (Reg _) => (true, w)
    | None => (true, set_disk (<[p := Reg []]> (disk w)) w)
    end
  else (false, w).

Definition remove_entry (p : string) (w : world) : bool * world :=
  if is_reg (disk w !! p)
  then (true, set_disk (delete p (disk w)) w)
  else (false, w).

(** *** As an Arduino filesystem: a [File] is the path it was opened on,
    or [None] for the empty [File]. *)

#[global] Instance flash_arduino : Arduino.ArduinoFS world (option string) := {|
  Arduino.FS_begin := mount;
  Arduino.FS_setConfig := set_autoformat;
  Arduino.FS_begin0 := fun w => mount (autoformat w) w;
  Arduino.FS_end := set_mounted false;
  Arduino.FS_exists := fun p w => bool_decide (is_Some (disk w !! p));
  Arduino.FS_open := fun p mode w =>
    let '(ok, w1) := open_entry p mode w in
    (if ok then Some p else None, w1);
  Arduino.FS_remove := remove_entry;
  Arduino.File_bool := fun f _ => bool_decide (is_Some f);
  Arduino.File_isFile := fun f w =>
    match f with Some p => is_reg (disk w !! p) | None => false end;
  Arduino.File_size := fun f w =>
    match f with Some p => reg_size (disk w !! p) | None => 0 end;
  Arduino.File_close := fun _ w => w
|}.

(** *** As an ESP-IDF filesystem: a [FILE] is an index into the table of
    open streams. *)

Definition data_of (w : world) (s : stream) : option (list Byte.byte) :=
  match disk w !! s_path s with
  | Some (Reg d) => Some d
  | _ => None
  end.

Definition fopen (p mode : string) (w : world) : option nat * world :=
  if bool_decide (length (streams w) < MAX_STREAMS)%nat then
    let '(ok, w1) := open_entry p mode w in
    if ok && is_reg (disk w1 !! p) then
      (Some (length (streams w1)),
       set_streams
         (streams w1 ++ [{| s_path := p; s_mode := mode; s_pos := 0 |}]) w1)
    else (None, w)
  else (None, w).

(** The bytes of the file a stream is open on. *)
Definition stream_data (f : nat) (w : world) : list Byte.byte :=
  match streams w !! f with
  | Some s => default [] (data_of w s)
  | None => []
  end.

(** Where the next read and the next write of a stream take place: a
    stream that appends writes at the end of the file. *)
Definition read_pos (f : nat) (w : world) : nat :=
  match streams w !! f with
  | Some s => s_pos s
  | None => 0%nat
  end.

Definition write_pos (f : nat) (w : world) : nat :=
  match streams w !! f with
  | Some s =>
      if appends (s_mode s) then length (stream_data f w) else s_pos s
  | None => 0%nat
  end.

(** [fread(buf, size, nmemb, f)]: up to [size * nmemb] bytes from the
    position of the stream; the count is in whole elements. *)
Definition fread (f : nat) (size nmemb : Z) (w : world)
  : Z * list Byte.byte * world :=
  match streams w !! f with
  | Some s =>
      match data_of w s with
      | Some d =>
          if can_read (s_mode s) then
            let got := take (Z.to_nat (size * nmemb)) (drop (s_pos s) d) in
            let s' := {| s_path := s_path s; s_mode := s_mode s;
                         s_pos := (s_pos s + length got)%nat |} in
            (Z.of_nat (length got) / size, got,
             set_streams (<[f := s']> (streams w)) w)
          else (0, [], w)
      | None => (0, [], w)
      end
  | None => (0, [], w)
  end.

(** [fwrite(buf, size, nmemb, f)]: up to [size * nmemb] bytes of [buf]
    replace the bytes at the write position, the file growing (with zero
    bytes up to the position) as needed. *)
Definition fwrite (f : nat) (buf : list Byte.byte) (size nmemb : Z)
  (w : world) : Z * world :=
  match streams w !! f with
  | Some s =>
      match data_of w s with
      | Some d =>
          if can_write (s_mode s) then
            let pos := if appends (s_mode s) then length d else s_pos s in
            let put := take (Z.to_nat (size * nmemb)) buf in
            let d' := take pos (d ++ replicate (pos - length d) Byte.x00)
                        ++ put ++ drop (pos + length put) d in
            let s' := {| s_path := s_path s; s_mode := s_mode s;
                         s_pos := (pos + length put)%nat |} in
            (Z.of_nat (length put) / size,
             set_streams (<[f := s']> (streams w))
               (set_disk (<[s_path s := Reg d']> (disk w)) w))
          else (0, w)
      | None => (0, w)
      end
  | None => (0, w)
  end.

Definition fseek (f : nat) (offset : Z) (w : world) : Z * world :=
  match streams w !! f with
  | Some s =>
      if offset <? 0 then (-1, w)
      else
        let s' := {| s_path := s_path s; s_mode := s_mode s;
                     s_pos := Z.to_nat offset |} in
        (0, set_streams (<[f := s']> (streams w)) w)
  | None => (-1, w)
  end.

Definition fgetc (f : nat) (w : world) : Z * world :=
  match fread f 1 1 w with
  | (_, b :: _, w1) => (Z.of_N (Byte.to_N b), w1)
  | (_, [], w1) => (-1, w1)
  end.

#[global] Instance flash_espidf : EspIdf.EspIdfFS world nat := {|
  EspIdf.sys_stat := fun p w =>
    match disk w !! p with
    | Some n => (0, {| EspIdf.st_size := reg_size (Some n) |})
    | None => (-1, {| EspIdf.st_size := 0 |})
    end;
  EspIdf.c_fopen := fopen;
  EspIdf.c_fclose := fun _ w => (0, w);
  EspIdf.c_fread := fread;
  EspIdf.c_fwrite := fwrite;
  EspIdf.c_fseek := fseek;
  EspIdf.c_fgetc := fgetc;
  EspIdf.c_unlink := fun p w =>
    let '(ok, w1) := remove_entry p w in (if ok then 0 else -1, w1);
  EspIdf.esp_vfs_spiffs_register := fun conf w =>
    let '(ok, w1) := mount (EspIdf.format_if_mount_failed conf) w in
    (if ok then EspIdf.ESP_OK else EspIdf.ESP_FAIL, w1);
  EspIdf.esp_vfs_spiffs_unregister := fun _ w => set_mounted false w
|}.

(** *** Sample states *)

(** A mounted partition with one three-byte file and one directory. *)
Definition sample : world := {|
  disk := {[ "/ao/cfg.jsn"%string := Reg [Byte.x7b; Byte.x7d; Byte.x0a];
             "/ao/logs"%string := Dir ]};
  partition_ok := true;
  autoformat := false;
  mounted := true;
  streams := []
|}.

(** A partition that cannot be mounted without formatting. *)
Definition broken : world := {|
  disk := ∅;
  partition_ok := false;
  autoformat := false;
  mounted := false;
  streams := []
|}.

(** Caller memory with one [size_t] object, at address [4096], set to [7]. *)
Definition caller_mem : Memory.mem := {[ 4096 := 7 ]}.

(** The sample after [fopen] of [/ao/cfg.jsn] for reading: stream [0] is open at
    position [0]. *)
Definition opened : world := (fopen "/ao/cfg.jsn" "r" sample).2.

(** The sample after [fopen] of [/ao/cfg.jsn] for appending: stream [0]
    writes at the end of the file. *)
Definition opened_a : world := (fopen "/ao/cfg.jsn" "a" sample).2.

(** The sample before it is mounted. *)
Definition unmounted : world := set_mounted false sample.

(** The handle on stream [0], and a handle on a stream that is not open. *)
Definition handle : EspIdf.EspIdfFileAdapter nat := {| EspIdf.file := 0%nat |}.
Definition stale : EspIdf.EspIdfFileAdapter nat := {| EspIdf.file := 9%nat |}.

(** Configurations: no access, mount without formatting, no mount. *)
Definition cfg_deactivate : FilesystemOpt :=
  {| accessAllowed := false; mustMount := false; formatOnFail := false |}.
Definition cfg_use_mount : FilesystemOpt :=
  {| accessAllowed := true; mustMount := true; formatOnFail := false |}.
Definition cfg_use : FilesystemOpt :=
  {| accessAllowed := true; mustMount := false; formatOnFail := false |}.
Definition cfg_use_mount_format : FilesystemOpt :=
  {| accessAllowed := true; mustMount := true; formatOnFail := true |}.

End Flash.

(** The mount call the Arduino constructor issues for the selected file
    API, as one function of the platform state. *)
Definition platform_mount {W File : Type} `{!Arduino.ArduinoFS W File}
  (api : Arduino.FileApi) (fmt : bool) (w : W) : bool * W :=
  match api with
  | Arduino.ARDUINO_LITTLEFS => Arduino.FS_begin fmt w
  | Arduino.ARDUINO_SPIFFS => Arduino.FS_begin0 (Arduino.FS_setConfig fmt w)
  end.

(** The configuration record the ESP-IDF factory registers. *)
Definition spiffs_conf (prefix : string) (config : FilesystemOpt)
  : EspIdf.esp_vfs_spiffs_conf_t :=
  {| EspIdf.base_path := prefix;
     EspIdf.partition_label := "ao";
     EspIdf.max_files := 5;
     EspIdf.format_if_mount_failed := formatOnFail config |}.

(** ** The contract of [fread] and [fwrite]

    What the C standard promises of the two calls, for any element size,
    in terms of three observations of a stream: the bytes of its file, the
    position of its next read and the position of its next write.

    [fread] stores in [buf] the bytes of the file from the read position
    on, at most [size * nmemb] of them, advances the position by as many,
    leaves the file alone, and returns the number of whole elements
    stored. *)
Definition fread_contract {W FILE : Type} `{!EspIdf.EspIdfFS W FILE}
  (content : FILE -> W -> list Byte.byte) (rpos : FILE -> W -> nat)
  : Prop :=
  forall (f : FILE) (size nmemb : Z) (w : W),
    0 < size -> 0 <= nmemb ->
    let r := EspIdf.c_fread f size nmemb w in
    let k := length r.1.2 in
    r.1.1 = Z.of_nat k / size /\
    Z.of_nat k <= size * nmemb /\
    r.1.2 = take k (drop (rpos f w) (content f w)) /\
    rpos f r.2 = (rpos f w + k)%nat /\
    content f r.2 = content f w.

(** [fwrite] puts some number [k] of leading bytes of [buf], at most
    [size * nmemb], in the file at the write position, advances the
    position by [k], and returns the number of whole elements put. *)
Definition fwrite_contract {W FILE : Type} `{!EspIdf.EspIdfFS W FILE}
  (content : FILE -> W -> list Byte.byte) (wpos : FILE -> W -> nat)
  : Prop :=
  forall (f : FILE) (buf : list Byte.byte) (size nmemb : Z) (w : W),
    0 < size -> 0 <= nmemb -> size * nmemb <= Z.of_nat (length buf) ->
    let r := EspIdf.c_fwrite f buf size nmemb w in
    exists k : nat,
      r.1 = Z.of_nat k / size /\
      Z.of_nat k <= size * nmemb /\
      take k (drop (wpos f w) (content f r.2)) = take k buf /\
      wpos f r.2 = (wpos f w + k)%nat.

(** * Properties *)

(** ** Machine integers and caller memory *)

Lemma to_size_t_range z : 0 <= Machine.to_size_t z <= Machine.SIZE_MAX.
Proof.
  unfold Machine.to_size_t, Machine.SIZE_MAX, Machine.SIZE_BITS.
  pose proof (Z.mod_pos_bound z (2 ^ 32) ltac:(lia)). lia.
Qed.

Lemma to_size_t_small z :
  0 <= z <= Machine.SIZE_MAX -> Machine.to_size_t z = z.
Proof.
  unfold Machine.to_size_t, Machine.SIZE_MAX, Machine.SIZE_BITS.
  intros Hz. apply Z.mod_small. lia.
Qed.

Lemma to_long_small z :
  0 <= z < 2 ^ 31 -> Machine.to_long z = z.
Proof.
  unfold Machine.to_long, Machine.SIZE_BITS. intros Hz.
  rewrite Z.mod_small; lia.
Qed.

Lemma store_valid p v old (m : Memory.mem) :
  m !! p = Some old -> Memory.store p v m = Some (<[p := v]> m).
Proof. intros Hp. unfold Memory.store. by rewrite Hp. Qed.

Lemma store_lookup p v (m m' : Memory.mem) :
  Memory.store p v m = Some m' -> m' !! p = Some v.
Proof.
  unfold Memory.store. destruct (m !! p); [|done].
  intros [= <-]. apply lookup_insert_eq.
Qed.

Lemma store_frame p q v (m m' : Memory.mem) :
  Memory.store p v m = Some m' -> p <> q -> m' !! q = m !! q.
Proof.
  unfold Memory.store. destruct (m !! p); [|done].
  intros [= <-] Hne. by apply lookup_insert_ne.
Qed.

(** ** The Arduino adapter, operation by operation *)

Section ArduinoFacts.
Context {W File : Type} `{!Arduino.ArduinoFS W File}.
Variable api : Arduino.FileApi.

(** [stat] never touches the caller's memory, whatever it returns. *)
Lemma arduino_stat_mem path size (m : Memory.mem) (w : W) :
  (Arduino.stat path size m w).1.2 = m.
Proof.
  unfold Arduino.stat.
  destruct (Arduino.FS_exists path w); simpl; [|done].
  destruct (Arduino.FS_open path "r" w) as [f w1].
  destruct (Arduino.File_bool f w1); simpl; [|done].
  by destruct (Arduino.File_isFile f w1).
Qed.

(** The status is [0] or [-1]. *)
Lemma arduino_stat_status path size (m : Memory.mem) (w : W) :
  (Arduino.stat path size m w).1.1 = 0 \/
  (Arduino.stat path size m w).1.1 = -1.
Proof.
  unfold Arduino.stat.
  destruct (Arduino.FS_exists path w); simpl; [|by right].
  destruct (Arduino.FS_open path "r" w) as [f w1].
  destruct (Arduino.File_bool f w1); simpl; [|by right].
  destruct (Arduino.File_isFile f w1); simpl; [by left | by right].
Qed.

Lemma arduino_stat_absent path size (m : Memory.mem) (w : W) :
  Arduino.FS_exists path w = false ->
  Arduino.stat path size m w = (-1, m, w).
Proof. intros He. unfold Arduino.stat. by rewrite He. Qed.

Lemma arduino_stat_open_failed path size (m : Memory.mem) (w : W) :
  Arduino.File_bool (Arduino.FS_open path "r" w).1
                    (Arduino.FS_open path "r" w).2 = false ->
  (Arduino.stat path size m w).1.1 = -1.
Proof.
  unfold Arduino.stat.
  destruct (Arduino.FS_exists path w); simpl; [|done].
  destruct (Arduino.FS_open path "r" w) as [f w1]; simpl.
  by intros ->.
Qed.

Lemma arduino_stat_not_file path size (m : Memory.mem) (w : W) :
  Arduino.File_isFile (Arduino.FS_open path "r" w).1
                      (Arduino.FS_open path "r" w).2 = false ->
  (Arduino.stat path size m w).1.1 = -1.
Proof.
  unfold Arduino.stat.
  destruct (Arduino.FS_exists path w); simpl; [|done].
  destruct (Arduino.FS_open path "r" w) as [f w1]; simpl.
  intros ->. by destruct (Arduino.File_bool f w1).
Qed.

(** On an existing regular file the status is [0]; the size the platform
    reports ends in the local pointer variable only. *)
Lemma arduino_stat_regular path size (m : Memory.mem) (w : W) :
  Arduino.FS_exists path w = true ->
  Arduino.File_bool (Arduino.FS_open path "r" w).1
                    (Arduino.FS_open path "r" w).2 = true ->
  Arduino.File_isFile (Arduino.FS_open path "r" w).1
                      (Arduino.FS_open path "r" w).2 = true ->
  Arduino.stat path size m w =
    (0, m, Arduino.File_close (Arduino.FS_open path "r" w).1
                              (Arduino.FS_open path "r" w).2).
Proof.
  unfold Arduino.stat. intros ->.
  destruct (Arduino.FS_open path "r" w) as [f w1]; simpl.
  by intros -> ->.
Qed.

Lemma arduino_open_some fn mode (w : W) :
  is_Some (Arduino.open fn mode w).1 <->
  Arduino.File_bool (Arduino.FS_open fn mode w).1
                    (Arduino.FS_open fn mode w).2 = true /\
  Arduino.File_isFile (Arduino.FS_open fn mode w).1
                      (Arduino.FS_open fn mode w).2 = true.
Proof.
  unfold Arduino.open.
  destruct (Arduino.FS_open fn mode w) as [f w1]; simpl.
  destruct (Arduino.File_bool f w1), (Arduino.File_isFile f w1); simpl;
    split; first [by intros [? [=]] | by intros [[=] [=]] | by eauto].
Qed.

Lemma arduino_open_wraps fn mode (w : W) a :
  (Arduino.open fn mode w).1 = Some a ->
  Arduino.file a = (Arduino.FS_open fn mode w).1 /\
  (Arduino.open fn mode w).2 = (Arduino.FS_open fn mode w).2.
Proof.
  unfold Arduino.open.
  destruct (Arduino.FS_open fn mode w) as [f w1]; simpl.
  destruct (Arduino.File_bool f w1 && Arduino.File_isFile f w1); simpl;
    [|done].
  by intros [= <-].
Qed.

Lemma arduino_open_none fn mode (w : W) :
  Arduino.File_bool (Arduino.FS_open fn mode w).1
                    (Arduino.FS_open fn mode w).2 = false \/
  Arduino.File_isFile (Arduino.FS_open fn mode w).1
                      (Arduino.FS_open fn mode w).2 = false ->
  (Arduino.open fn mode w).1 = None.
Proof.
  unfold Arduino.open.
  destruct (Arduino.FS_open fn mode w) as [f w1]; simpl.
  intros [-> | ->]; [done|].
  by rewrite andb_false_r.
Qed.

Lemma arduino_new_valid config (w : W) :
  Arduino.valid (Arduino.ArduinoFilesystemAdapter_new api config w).1 =
    negb (mustMount config) ||
    (platform_mount api (formatOnFail config) w).1.
Proof.
  unfold Arduino.ArduinoFilesystemAdapter_new, platform_mount.
  destruct (mustMount config); simpl; [|done].
  destruct api.
  - by destruct (Arduino.FS_begin (formatOnFail config) w) as [[] w1].
  - by destruct (Arduino.FS_begin0 _) as [[] w1].
Qed.

Lemma arduino_new_config config (w : W) :
  Arduino.config (Arduino.ArduinoFilesystemAdapter_new api config w).1 =
    config.
Proof.
  unfold Arduino.ArduinoFilesystemAdapter_new.
  destruct (mustMount config); simpl; [|done].
  destruct api.
  - by destruct (Arduino.FS_begin (formatOnFail config) w) as [[] w1].
  - by destruct (Arduino.FS_begin0 _) as [[] w1].
Qed.

Lemma arduino_make_result config (w : W) :
  (Arduino.makeDefaultFilesystemAdapter api config w).1 =
    if accessAllowed config &&
       (negb (mustMount config) ||
        (platform_mount api (formatOnFail config) w).1)
    then Some {| Arduino.valid := true; Arduino.config := config |}
    else None.
Proof.
  unfold Arduino.makeDefaultFilesystemAdapter,
    Arduino.ArduinoFilesystemAdapter_bool.
  destruct (accessAllowed config); simpl; [|done].
  pose proof (arduino_new_valid config w) as Hv.
  pose proof (arduino_new_config config w) as Hc.
  destruct (Arduino.ArduinoFilesystemAdapter_new api config w)
    as [[v c] w1]; simpl in *.
  rewrite <- Hv. subst c. by destruct v.
Qed.

(** The factory, result and final state, case by case. *)
Lemma arduino_make_full config (w : W) :
  Arduino.makeDefaultFilesystemAdapter api config w =
    if negb (accessAllowed config) then (None, w)
    else if negb (mustMount config)
    then (Some {| Arduino.valid := true; Arduino.config := config |}, w)
    else if (platform_mount api (formatOnFail config) w).1
    then (Some {| Arduino.valid := true; Arduino.config := config |},
          (platform_mount api (formatOnFail config) w).2)
    else (None,
          Arduino.FS_end (platform_mount api (formatOnFail config) w).2).
Proof.
  unfold Arduino.makeDefaultFilesystemAdapter,
    Arduino.ArduinoFilesystemAdapter_new,
    Arduino.ArduinoFilesystemAdapter_bool,
    Arduino.ArduinoFilesystemAdapter_delete, platform_mount.
  destruct (accessAllowed config); simpl; [|done].
  destruct (mustMount config) eqn:Hm; simpl; [|done].
  destruct api.
  - destruct (Arduino.FS_begin (formatOnFail config) w) as [[] w1]; simpl;
      [done | by rewrite Hm].
  - destruct (Arduino.FS_begin0 _) as [[] w1]; simpl;
      [done | by rewrite Hm].
Qed.

End ArduinoFacts.

(** ** The ESP-IDF adapter, operation by operation *)

Section EspIdfFacts.
Context {W FILE : Type} `{!EspIdf.EspIdfFS W FILE}.
Variable prefix : string.

(** A failed [::stat] is passed on: no store, no fault, same platform
    state. *)
Lemma espidf_stat_failure path size (m : Memory.mem) (w : W) :
  (EspIdf.sys_stat path w).1 <> 0 ->
  EspIdf.stat path size m w = Some ((EspIdf.sys_stat path w).1, m, w).
Proof.
  unfold EspIdf.stat. destruct (EspIdf.sys_stat path w) as [ret st]; simpl.
  intros Hret. by destruct (decide (ret = 0)).
Qed.

(** A successful [::stat] stores [st_size], converted to [size_t], in the
    object [size] points to. *)
Lemma espidf_stat_success path size old (m : Memory.mem) (w : W) :
  (EspIdf.sys_stat path w).1 = 0 ->
  m !! size = Some old ->
  EspIdf.stat path size m w =
    Some (0,
          <[size := Machine.to_size_t
                      (EspIdf.st_size (EspIdf.sys_stat path w).2)]> m,
          w).
Proof.
  unfold EspIdf.stat. destruct (EspIdf.sys_stat path w) as [ret st]; simpl.
  intros -> Hold. destruct (decide (0 = 0)); [|done].
  by rewrite (store_valid _ _ old).
Qed.

(** The status is the return value of [::stat]. *)
Lemma espidf_stat_status path size (m m' : Memory.mem) (w w' : W) ret :
  EspIdf.stat path size m w = Some (ret, m', w') ->
  ret = (EspIdf.sys_stat path w).1 /\ w' = w.
Proof.
  unfold EspIdf.stat. destruct (EspIdf.sys_stat path w) as [r st]; simpl.
  destruct (decide (r = 0)).
  - destruct (Memory.store _ _ m); [|done]. by intros [= <- _ <-].
  - by intros [= <- _ <-].
Qed.

Lemma espidf_stat_frame path size (m m' : Memory.mem) (w w' : W) ret :
  EspIdf.stat path size m w = Some (ret, m', w') ->
  ret <> 0 -> m' = m.
Proof.
  unfold EspIdf.stat. destruct (EspIdf.sys_stat path w) as [r st]; simpl.
  destruct (decide (r = 0)).
  - destruct (Memory.store _ _ m); [|done]. by intros [= <- _ _].
  - by intros [= _ <- _].
Qed.

Lemma espidf_open_result fn mode (w : W) :
  EspIdf.open fn mode w =
    (EspIdf.Build_EspIdfFileAdapter FILE <$> (EspIdf.c_fopen fn mode w).1,
     (EspIdf.c_fopen fn mode w).2).
Proof.
  unfold EspIdf.open.
  by destruct (EspIdf.c_fopen fn mode w) as [[f|] w1].
Qed.

Lemma espidf_remove_result fn (w : W) :
  EspIdf.remove fn w =
    (bool_decide ((EspIdf.c_unlink fn w).1 = 0), (EspIdf.c_unlink fn w).2).
Proof.
  unfold EspIdf.remove. by destruct (EspIdf.c_unlink fn w) as [r w1].
Qed.

Lemma espidf_seek_result (a : EspIdf.EspIdfFileAdapter FILE) offset (w : W) :
  EspIdf.seek a offset w =
    (Machine.to_size_t
       (EspIdf.c_fseek (EspIdf.file a) (Machine.to_long offset) w).1,
     (EspIdf.c_fseek (EspIdf.file a) (Machine.to_long offset) w).2).
Proof.
  unfold EspIdf.seek.
  by destruct (EspIdf.c_fseek (EspIdf.file a) _ w) as [r w1].
Qed.

Lemma espidf_make_result config (w : W) :
  (EspIdf.makeDefaultFilesystemAdapter prefix config w).1 =
    if accessAllowed config &&
       (negb (mustMount config) ||
        bool_decide
          ((EspIdf.esp_vfs_spiffs_register (spiffs_conf prefix config) w).1
           = EspIdf.ESP_OK))
    then Some {| EspIdf.config := config |}
    else None.
Proof.
  unfold EspIdf.makeDefaultFilesystemAdapter, spiffs_conf.
  destruct (accessAllowed config); simpl; [|done].
  destruct (mustMount config); simpl; [|done].
  destruct (EspIdf.esp_vfs_spiffs_register _ w) as [ret w1]; simpl.
  destruct (decide (ret = EspIdf.ESP_OK)) as [Hr|Hr].
  - by rewrite bool_decide_eq_true_2.
  - by rewrite bool_decide_eq_false_2.
Qed.

(** The factory, result and final state, case by case. *)
Lemma espidf_make_full config (w : W) :
  EspIdf.makeDefaultFilesystemAdapter prefix config w =
    if negb (accessAllowed config) then (None, w)
    else if negb (mustMount config)
    then (Some {| EspIdf.config := config |}, w)
    else if bool_decide
              ((EspIdf.esp_vfs_spiffs_register
                  (spiffs_conf prefix config) w).1 = EspIdf.ESP_OK)
    then (Some {| EspIdf.config := config |},
          (EspIdf.esp_vfs_spiffs_register (spiffs_conf prefix config) w).2)
    else (None,
          (EspIdf.esp_vfs_spiffs_register (spiffs_conf prefix config) w).2).
Proof.
  unfold EspIdf.makeDefaultFilesystemAdapter, spiffs_conf.
  destruct (accessAllowed config); simpl; [|done].
  destruct (mustMount config); simpl; [|done].
  destruct (EspIdf.esp_vfs_spiffs_register _ w) as [ret w1]; simpl.
  destruct (decide (ret = EspIdf.ESP_OK)) as [Hr|Hr].
  - by rewrite bool_decide_eq_true_2.
  - by rewrite bool_decide_eq_false_2.
Qed.

End EspIdfFacts.

(** ** The reference platform *)

Section FlashFacts.

(** A path is on the partition exactly when [exists] says so. *)
Lemma flash_exists_iff path (w : Flash.world) :
  Arduino.FS_exists path w = true <-> is_Some (Flash.disk w !! path).
Proof. simpl. apply bool_decide_eq_true. Qed.

(** [::stat] fails exactly on the paths that are not on the partition. *)
Lemma flash_sys_stat_absent path (w : Flash.world) :
  (EspIdf.sys_stat path w).1 <> 0 <-> Flash.disk w !! path = None.
Proof. simpl. destruct (Flash.disk w !! path); simpl; split; done. Qed.

(** [::stat] reports the length of a regular file. *)
Lemma flash_sys_stat_regular path data (w : Flash.world) :
  Flash.disk w !! path = Some (Flash.Reg data) ->
  EspIdf.sys_stat path w =
    (0, {| EspIdf.st_size := Z.of_nat (length data) |}).
Proof. simpl. by intros ->. Qed.

Lemma take_length_take {A : Type} (n : nat) (l : list A) :
  take (length (take n l)) l = take n l.
Proof.
  rewrite length_take.
  destruct (Nat.min_spec n (length l)) as [[_ ->]|[Hle ->]]; [done|].
  by rewrite !take_ge by lia.
Qed.

(** The reference platform keeps the contract of [fread]. *)
Lemma flash_fread_contract :
  fread_contract (W := Flash.world) Flash.stream_data Flash.read_pos.
Proof.
  intros f size nmemb w Hsize Hn. simpl.
  unfold Flash.fread, Flash.read_pos, Flash.stream_data.
  destruct (Flash.streams w !! f) as [s|] eqn:Hf; simpl;
    [|rewrite Hf; repeat split; try done; lia].
  destruct (Flash.data_of w s) as [d|] eqn:Hd; simpl;
    [|rewrite Hf, Hd; repeat split; try done; lia].
  destruct (Flash.can_read (Flash.s_mode s)); simpl;
    [|rewrite Hf, Hd; repeat split; try done; lia].
  assert (Hlt : (f < length (Flash.streams w))%nat)
    by (by eapply lookup_lt_Some).
  rewrite list_lookup_insert_eq by done. simpl.
  unfold Flash.data_of in *. simpl. rewrite Hd. simpl.
  repeat split.
  - rewrite length_take. lia.
  - by rewrite take_length_take.
Qed.

(** The reference platform keeps the contract of [fwrite]. *)
Lemma flash_fwrite_contract :
  fwrite_contract (W := Flash.world) Flash.stream_data Flash.write_pos.
Proof.
  intros f buf size nmemb w Hsize Hn Hbuf. simpl.
  unfold Flash.fwrite, Flash.write_pos, Flash.stream_data.
  destruct (Flash.streams w !! f) as [s|] eqn:Hf; simpl;
    [|exists 0%nat; rewrite Hf; repeat split; try done; lia].
  destruct (Flash.data_of w s) as [d|] eqn:Hd; simpl;
    [|exists 0%nat; rewrite Hf, Hd; repeat split; try done; lia].
  destruct (Flash.can_write (Flash.s_mode s)); simpl;
    [|exists 0%nat; rewrite Hf, Hd; repeat split; try done; lia].
  assert (Hlt : (f < length (Flash.streams w))%nat)
    by (by eapply lookup_lt_Some).
  set (pos := if Flash.appends (Flash.s_mode s) then length d
              else Flash.s_pos s).
  set (put := take (Z.to_nat (size * nmemb)) buf).
  exists (length put).
  rewrite list_lookup_insert_eq by done. simpl.
  unfold Flash.data_of. simpl. rewrite lookup_insert_eq. simpl.
  assert (Hput : length put = Z.to_nat (size * nmemb))
    by (unfold put; rewrite length_take; lia).
  assert (Hpre : length (take pos (d ++ replicate (pos - length d) Byte.x00))
                 = pos).
  { rewrite length_take, length_app, length_replicate. lia. }
  split; [done|]. split; [lia|]. split.
  - replace (if Flash.appends (Flash.s_mode s)
             then length d else Flash.s_pos s) with pos by done.
    rewrite drop_app_length' by done.
    rewrite take_app_length' by done.
    unfold put. by rewrite take_length_take.
  - destruct (Flash.appends (Flash.s_mode s)) eqn:Happ; [|done].
    subst pos. rewrite Nat.sub_diag. simpl. rewrite app_nil_r.
    rewrite firstn_all. rewrite !length_app.
    rewrite length_drop. lia.
Qed.

(** [fseek] answers [0] or [-1]. *)
Lemma flash_fseek_status f offset (w : Flash.world) :
  (Flash.fseek f offset w).1 = 0 \/ (Flash.fseek f offset w).1 = -1.
Proof.
  unfold Flash.fseek.
  destruct (Flash.streams w !! f) as [s|]; simpl; [|by right].
  destruct (offset <? 0); simpl; [by right | by left].
Qed.

End FlashFacts.

(** ** Statements about both adapters *)

Section Claims.
Context {WA File : Type} `{!Arduino.ArduinoFS WA File}.
Context {WE FILE : Type} `{!EspIdf.EspIdfFS WE FILE}.
Variable api : Arduino.FileApi.
Variable prefix : string.

(** C2, as the code has it.  [seek(offset)] returns the status of
    [fseek(file, offset, SEEK_SET)] converted to [size_t], and leaves the
    platform in the state [fseek] left it: the result is [0] when [fseek]
    reports success ([0]) and [SIZE_MAX] when it reports failure ([-1]).
    After a successful [fseek] the result equals the offset exactly when
    the offset is [0]. *)
Theorem C2_seek_returns_fseek_status
  (a : EspIdf.EspIdfFileAdapter FILE) (offset : Z) (w w1 : WE) (r : Z) :
  EspIdf.c_fseek (EspIdf.file a) (Machine.to_long offset) w = (r, w1) ->
  EspIdf.seek a offset w = (Machine.to_size_t r, w1) /\
  (r = 0 -> (EspIdf.seek a offset w).1 = 0) /\
  (r = -1 -> (EspIdf.seek a offset w).1 = Machine.SIZE_MAX) /\
  (r = 0 -> ((EspIdf.seek a offset w).1 = offset <-> offset = 0)).
Proof.
  intros Hseek. rewrite espidf_seek_result, Hseek. simpl.
  split; [done|]. split; [by intros ->|]. split; [by intros ->|].
  intros ->. change (Machine.to_size_t 0) with 0. split; congruence.
Qed.

(** C4.  Whenever the platform reports a failure, each adapter operation
    returns its error value and does so without a fault.
    Arduino adapter: [stat] returns [-1] when the path is reported absent
    or the open fails; [open] returns null when the open fails; [remove]
    returns [false] when the platform's remove does; the factory returns
    null when the required mount fails.
    ESP-IDF adapter: [stat] returns [-1], with memory and platform state
    untouched, when [::stat] returns [-1]; [open] returns null when [fopen]
    does; [remove] returns [false] when [unlink] is not [0]; [read] and
    [write] return the short count of [fread] and [fwrite]; [seek] returns
    [SIZE_MAX] when [fseek] returns [-1]; the factory returns null when
    the required registration is not [ESP_OK]. *)
Theorem C4_failures_yield_error_values :
  (forall path size (m : Memory.mem) (w : WA),
     Arduino.FS_exists path w = false \/
     Arduino.File_bool (Arduino.FS_open path "r" w).1
                       (Arduino.FS_open path "r" w).2 = false ->
     (Arduino.stat path size m w).1.1 = -1) /\
  (forall fn mode (w : WA),
     Arduino.File_bool (Arduino.FS_open fn mode w).1
                       (Arduino.FS_open fn mode w).2 = false ->
     (Arduino.open fn mode w).1 = None) /\
  (forall fn (w : WA),
     (Arduino.FS_remove fn w).1 = false ->
     (Arduino.remove fn w).1 = false) /\
  (forall config (w : WA),
     mustMount config = true ->
     (platform_mount api (formatOnFail config) w).1 = false ->
     (Arduino.makeDefaultFilesystemAdapter api config w).1 = None) /\
  (forall path size (m : Memory.mem) (w : WE),
     (EspIdf.sys_stat path w).1 = -1 ->
     EspIdf.stat path size m w = Some (-1, m, w)) /\
  (forall fn mode (w : WE),
     (EspIdf.c_fopen fn mode w).1 = None ->
     (EspIdf.open fn mode w).1 = None) /\
  (forall fn (w : WE),
     (EspIdf.c_unlink fn w).1 <> 0 ->
     (EspIdf.remove fn w).1 = false) /\
  (forall (a : EspIdf.EspIdfFileAdapter FILE) len (w : WE),
     (EspIdf.c_fread (EspIdf.file a) 1 len w).1.1 < len ->
     (EspIdf.read a len w).1.1 = (EspIdf.c_fread (EspIdf.file a) 1 len w).1.1
     /\ (EspIdf.read a len w).1.1 < len) /\
  (forall (a : EspIdf.EspIdfFileAdapter FILE) buf len (w : WE),
     (EspIdf.c_fwrite (EspIdf.file a) buf 1 len w).1 < len ->
     (EspIdf.write a buf len w).1 =
       (EspIdf.c_fwrite (EspIdf.file a) buf 1 len w).1
     /\ (EspIdf.write a buf len w).1 < len) /\
  (forall (a : EspIdf.EspIdfFileAdapter FILE) offset (w : WE),
     (EspIdf.c_fseek (EspIdf.file a) (Machine.to_long offset) w).1 = -1 ->
     (EspIdf.seek a offset w).1 = Machine.SIZE_MAX) /\
  (forall config (w : WE),
     mustMount config = true ->
     (EspIdf.esp_vfs_spiffs_register (spiffs_conf prefix config) w).1
       <> EspIdf.ESP_OK ->
     (EspIdf.makeDefaultFilesystemAdapter prefix config w).1 = None).
Proof.
  repeat apply conj.
  - intros path size m w [He | Ho].
    + by rewrite arduino_stat_absent.
    + by apply arduino_stat_open_failed.
  - intros fn mode w Ho. apply arduino_open_none. by left.
  - intros fn w Hr. exact Hr.
  - intros config w Hm Hf. rewrite arduino_make_result, Hm, Hf. simpl.
    by rewrite andb_false_r.
  - intros path size m w Hs.
    rewrite espidf_stat_failure; rewrite Hs; done.
  - intros fn mode w Ho. by rewrite espidf_open_result, Ho.
  - intros fn w Hu. rewrite espidf_remove_result. simpl.
    by apply bool_decide_eq_false_2.
  - intros a len w Hn. by split.
  - intros a buf len w Hn. by split.
  - intros a offset w Hs. by rewrite espidf_seek_result, Hs.
  - intros config w Hm Hr. rewrite espidf_make_result, Hm. simpl.
    rewrite bool_decide_eq_false_2 by done. by rewrite andb_false_r.
Qed.

(** C5.  On a path the platform reports as absent, [stat] returns a
    nonzero status in both adapters: the Arduino [stat] returns [-1] when
    [exists] answers [false], and the ESP-IDF [stat] returns the nonzero
    value of [::stat]. *)
Theorem C5_stat_absent_path_fails :
  (forall path size (m : Memory.mem) (w : WA),
     Arduino.FS_exists path w = false ->
     (Arduino.stat path size m w).1.1 = -1 /\
     (Arduino.stat path size m w).1.1 <> 0) /\
  (forall path size (m : Memory.mem) (w : WE),
     (EspIdf.sys_stat path w).1 <> 0 ->
     exists ret,
       EspIdf.stat path size m w = Some (ret, m, w) /\ ret <> 0).
Proof.
  split.
  - intros path size m w He. by rewrite arduino_stat_absent.
  - intros path size m w Hs. eexists. split; [|exact Hs].
    by apply espidf_stat_failure.
Qed.

(** C6, as the code has it.  The Arduino [open] returns a handle exactly
    when the platform's open succeeds and the opened object is a regular
    file; the ESP-IDF [open] returns a handle exactly when [fopen]
    succeeds.  In both, a returned handle wraps the very object the
    platform opened, so no handle wraps a failed open. *)
Theorem C6_open_returns_handle_iff :
  (forall fn mode (w : WA),
     (is_Some (Arduino.open fn mode w).1 <->
        Arduino.File_bool (Arduino.FS_open fn mode w).1
                          (Arduino.FS_open fn mode w).2 = true /\
        Arduino.File_isFile (Arduino.FS_open fn mode w).1
                            (Arduino.FS_open fn mode w).2 = true) /\
     (forall a, (Arduino.open fn mode w).1 = Some a ->
        Arduino.file a = (Arduino.FS_open fn mode w).1 /\
        Arduino.File_bool (Arduino.file a)
                          (Arduino.FS_open fn mode w).2 = true)) /\
  (forall fn mode (w : WE),
     (is_Some (EspIdf.open fn mode w).1 <->
        is_Some (EspIdf.c_fopen fn mode w).1) /\
     (forall a, (EspIdf.open fn mode w).1 = Some a ->
        (EspIdf.c_fopen fn mode w).1 = Some (EspIdf.file a))).
Proof.
  split.
  - intros fn mode w. split; [apply arduino_open_some|].
    intros a Ha.
    destruct (arduino_open_wraps _ _ _ _ Ha) as [Hf _].
    split; [done|]. rewrite Hf.
    apply (arduino_open_some fn mode w). by rewrite Ha.
  - intros fn mode w. rewrite espidf_open_result. simpl.
    split; [by rewrite fmap_is_Some|].
    intros a. destruct (EspIdf.c_fopen fn mode w).1; simpl; [|done].
    by intros [= <-].
Qed.

(** C7.  Let the C library keep the contract of [fread] and [fwrite],
    which counts whole elements of any size.  Then [read(buf, len)]
    returns the number of bytes it stored in [buf], a number from [0] to
    [len]; the bytes stored are the bytes of the file from the read
    position on, and the position moves by that number.  And
    [write(buf, len)], for a buffer of at least [len] bytes, returns a
    number [n] from [0] to [len] such that the first [n] bytes of [buf]
    now stand in the file at the write position, which moves by [n].
    The counts are counts of bytes because the adapter passes the element
    size [1]. *)
Theorem C7_read_write_return_counts
  (content : FILE -> WE -> list Byte.byte) (rpos wpos : FILE -> WE -> nat)
  (a : EspIdf.EspIdfFileAdapter FILE) (buf : list Byte.byte) (len : Z)
  (w : WE) :
  fread_contract content rpos ->
  fwrite_contract content wpos ->
  0 <= len ->
  len <= Z.of_nat (length buf) ->
  let f := EspIdf.file a in
  let rd := EspIdf.read a len w in
  let wr := EspIdf.write a buf len w in
  (rd.1.1 = Z.of_nat (length rd.1.2) /\
   0 <= rd.1.1 <= len /\
   rd.1.2 = take (Z.to_nat rd.1.1) (drop (rpos f w) (content f w)) /\
   rpos f rd.2 = (rpos f w + Z.to_nat rd.1.1)%nat /\
   content f rd.2 = content f w) /\
  (0 <= wr.1 <= len /\
   take (Z.to_nat wr.1) (drop (wpos f w) (content f wr.2))
     = take (Z.to_nat wr.1) buf /\
   wpos f wr.2 = (wpos f w + Z.to_nat wr.1)%nat).
Proof.
  intros Hfread Hfwrite Hlen Hbuf f rd wr.
  subst f rd wr. unfold EspIdf.read, EspIdf.write. split.
  - pose proof (Hfread (EspIdf.file a) 1 len w ltac:(lia) Hlen) as Hc.
    cbv zeta in Hc. rewrite Z.div_1_r in Hc.
    destruct Hc as (Hn & Hk & Hdata & Hpos & Hcont).
    rewrite Hn, Nat2Z.id. repeat split; try done; lia.
  - pose proof (Hfwrite (EspIdf.file a) buf 1 len w
                  ltac:(lia) Hlen ltac:(lia)) as Hc.
    cbv zeta in Hc. destruct Hc as (k & Hn & Hk & Hput & Hpos).
    rewrite Z.div_1_r in Hn.
    rewrite Hn, Nat2Z.id. repeat split; try done; lia.
Qed.

(** C8.  In the Arduino adapter, let the platform report [path] as
    existing and open it, both for reading and in mode [mode], and let the
    opened object not be a regular file.  Then [stat] returns [-1], with
    the caller's memory unchanged, and [open] returns null. *)
Theorem C8_arduino_directory_is_absent
  (path mode : string) (size : Z) (m : Memory.mem) (w : WA) :
  Arduino.FS_exists path w = true ->
  Arduino.File_bool (Arduino.FS_open path "r" w).1
                    (Arduino.FS_open path "r" w).2 = true ->
  Arduino.File_isFile (Arduino.FS_open path "r" w).1
                      (Arduino.FS_open path "r" w).2 = false ->
  Arduino.File_bool (Arduino.FS_open path mode w).1
                    (Arduino.FS_open path mode w).2 = true ->
  Arduino.File_isFile (Arduino.FS_open path mode w).1
                      (Arduino.FS_open path mode w).2 = false ->
  (Arduino.stat path size m w).1.1 = -1 /\
  (Arduino.stat path size m w).1.2 = m /\
  (Arduino.open path mode w).1 = None.
Proof.
  intros _ _ Hr _ Hm. split; [by apply arduino_stat_not_file|].
  split; [apply arduino_stat_mem|].
  apply arduino_open_none. by right.
Qed.

(** C9.  In both adapters [makeDefaultFilesystemAdapter] returns null when
    the configuration does not allow access, and when a mount is required
    and fails.  When it returns an adapter, access was allowed, the adapter
    carries the configuration (and, in the Arduino adapter, tests as
    valid), and either no mount was required and the platform is as it
    was, or the required mount succeeded and the platform is in the state
    that mount produced.  It does return an adapter whenever access is
    allowed and the mount is not required or succeeds. *)
Theorem C9_factory_null_or_valid :
  (forall config (w : WA),
     (accessAllowed config = false ->
        Arduino.makeDefaultFilesystemAdapter api config w = (None, w)) /\
     (mustMount config = true ->
      (platform_mount api (formatOnFail config) w).1 = false ->
        (Arduino.makeDefaultFilesystemAdapter api config w).1 = None) /\
     (forall fs w1,
        Arduino.makeDefaultFilesystemAdapter api config w = (Some fs, w1) ->
        Arduino.ArduinoFilesystemAdapter_bool fs = true /\
        Arduino.config fs = config /\
        accessAllowed config = true /\
        ((mustMount config = false /\ w1 = w) \/
         (mustMount config = true /\
          (platform_mount api (formatOnFail config) w).1 = true /\
          w1 = (platform_mount api (formatOnFail config) w).2))) /\
     (accessAllowed config = true ->
      mustMount config = false \/
      (platform_mount api (formatOnFail config) w).1 = true ->
        is_Some (Arduino.makeDefaultFilesystemAdapter api config w).1)) /\
  (forall config (w : WE),
     (accessAllowed config = false ->
        EspIdf.makeDefaultFilesystemAdapter prefix config w = (None, w)) /\
     (mustMount config = true ->
      (EspIdf.esp_vfs_spiffs_register (spiffs_conf prefix config) w).1
        <> EspIdf.ESP_OK ->
        (EspIdf.makeDefaultFilesystemAdapter prefix config w).1 = None) /\
     (forall fs w1,
        EspIdf.makeDefaultFilesystemAdapter prefix config w = (Some fs, w1) ->
        EspIdf.config fs = config /\
        accessAllowed config = true /\
        ((mustMount config = false /\ w1 = w) \/
         (mustMount config = true /\
          (EspIdf.esp_vfs_spiffs_register (spiffs_conf prefix config) w).1
            = EspIdf.ESP_OK /\
          w1 = (EspIdf.esp_vfs_spiffs_register
                  (spiffs_conf prefix config) w).2))) /\
     (accessAllowed config = true ->
      mustMount config = false \/
      (EspIdf.esp_vfs_spiffs_register (spiffs_conf prefix config) w).1
        = EspIdf.ESP_OK ->
        is_Some (EspIdf.makeDefaultFilesystemAdapter prefix config w).1)).
Proof.
  split.
  - intros config w. rewrite (arduino_make_full api config w).
    repeat apply conj.
    + by intros ->.
    + intros -> ->. by destruct (accessAllowed config).
    + intros fs w1.
      destruct (accessAllowed config); simpl; [|done].
      destruct (mustMount config); simpl.
      * destruct (platform_mount api (formatOnFail config) w).1; [|done].
        intros [= <- <-]. auto 10.
      * intros [= <- <-]. auto 10.
    + intros -> [-> | ->]; simpl; [by eexists|].
      destruct (mustMount config); simpl; by eexists.
  - intros config w. rewrite (espidf_make_full prefix config w).
    repeat apply conj.
    + by intros ->.
    + intros -> Hr. rewrite bool_decide_eq_false_2 by done.
      by destruct (accessAllowed config).
    + intros fs w1.
      destruct (accessAllowed config); simpl; [|done].
      destruct (mustMount config); simpl.
      * case_bool_decide as Hr; [|done]. intros [= <- <-]. auto 10.
      * intros [= <- <-]. auto 10.
    + intros -> [-> | Hr]; simpl; [by eexists|].
      rewrite bool_decide_eq_true_2 by done.
      destruct (mustMount config); simpl; by eexists.
Qed.

(** C10.  Whenever [stat] returns a nonzero status, the caller's memory,
    and with it the [size] object, is as it was before the call, in both
    adapters. *)
Theorem C10_stat_failure_leaves_size
  (path : string) (size : Z) (m : Memory.mem) :
  (forall (w : WA),
     (Arduino.stat path size m w).1.1 <> 0 ->
     (Arduino.stat path size m w).1.2 = m) /\
  (forall (w w' : WE) ret m',
     EspIdf.stat path size m w = Some (ret, m', w') ->
     ret <> 0 -> m' = m).
Proof.
  split.
  - intros w _. apply arduino_stat_mem.
  - intros w w' ret m'. apply espidf_stat_frame.
Qed.

End Claims.

(** ** The adapters on the reference platform *)

(** C1 fails in the Arduino adapter.  On the reference platform
    [/ao/cfg.jsn] is a regular file of three bytes and the caller's [size]
    object, at address [4096], holds [7].  The Arduino [stat] returns [0]
    and the object still holds [7]: the size went to the local pointer
    variable.  The ESP-IDF [stat], on the same input, returns [0] and
    stores [3]. *)
Theorem C1_arduino_stat_size_not_written :
  Flash.disk Flash.sample !! "/ao/cfg.jsn"%string =
    Some (Flash.Reg [Byte.x7b; Byte.x7d; Byte.x0a]) /\
  Flash.caller_mem !! 4096 = Some 7 /\
  (Arduino.stat "/ao/cfg.jsn" 4096 Flash.caller_mem Flash.sample).1.1 = 0 /\
  (Arduino.stat "/ao/cfg.jsn" 4096 Flash.caller_mem Flash.sample).1.2
    !! 4096 = Some 7 /\
  EspIdf.stat "/ao/cfg.jsn" 4096 Flash.caller_mem Flash.sample =
    Some (0, <[4096 := 3]> Flash.caller_mem, Flash.sample).
Proof. repeat split; vm_compute; reflexivity. Qed.

(** C2 fails as stated: seeking the open stream to offset [2] succeeds and
    moves the stream there, and [seek] returns [0]. *)
Lemma C2_seek_result_is_not_offset :
  EspIdf.open "/ao/cfg.jsn" "r" Flash.sample
    = (Some Flash.handle, Flash.opened) /\
  Flash.streams (EspIdf.seek Flash.handle 2 Flash.opened).2 !! 0%nat
    = Some {| Flash.s_path := "/ao/cfg.jsn"; Flash.s_mode := "r";
              Flash.s_pos := 2 |} /\
  (EspIdf.seek Flash.handle 2 Flash.opened).1 = 0 /\
  (EspIdf.seek Flash.handle 2 Flash.opened).1 <> 2.
Proof. repeat split; vm_compute; congruence. Qed.

(** C2 on the reference platform: a successful [fseek] gives [0]. *)
Lemma C2_witness :
  EspIdf.c_fseek 0%nat (Machine.to_long 2) Flash.opened
    = (0, (Flash.fseek 0 2 Flash.opened).2) /\
  (EspIdf.seek Flash.handle 2 Flash.opened).1 = 0.
Proof.
  split; [vm_compute; reflexivity|].
  destruct (C2_seek_returns_fseek_status (WE := Flash.world)
              Flash.handle 2 Flash.opened
              (Flash.fseek 0 2 Flash.opened).2 0) as (_ & Hok & _ & _).
  - vm_compute; reflexivity.
  - apply Hok. reflexivity.
Defined.

(** C4 on the reference platform: a missing path, a partition that cannot
    be mounted, a read past the end of the file and a stream that is not
    open. *)
Lemma C4_witness :
  (Arduino.stat "/ao/none" 4096 Flash.caller_mem Flash.sample).1.1 = -1 /\
  (Arduino.open "/ao/none" "r" Flash.sample).1 = None /\
  (Arduino.remove "/ao/none" Flash.sample).1 = false /\
  (Arduino.makeDefaultFilesystemAdapter
     Arduino.ARDUINO_SPIFFS Flash.cfg_use_mount Flash.broken).1 = None /\
  EspIdf.stat "/ao/none" 4096 Flash.caller_mem Flash.sample
    = Some (-1, Flash.caller_mem, Flash.sample) /\
  (EspIdf.open "/ao/none" "r" Flash.sample).1 = None /\
  (EspIdf.remove "/ao/none" Flash.sample).1 = false /\
  (EspIdf.read Flash.handle 10 Flash.opened).1.1 < 10 /\
  (EspIdf.write Flash.stale [Byte.x7b] 1 Flash.opened).1 < 1 /\
  (EspIdf.seek Flash.stale 2 Flash.opened).1 = Machine.SIZE_MAX /\
  (EspIdf.makeDefaultFilesystemAdapter
     "/ao" Flash.cfg_use_mount Flash.broken).1 = None.
Proof.
  destruct (C4_failures_yield_error_values
              (WA := Flash.world) (File := option string)
              (WE := Flash.world) (FILE := nat)
              Arduino.ARDUINO_SPIFFS "/ao")
    as (H1 & H2 & H3 & H4 & H5 & H6 & H7 & H8 & H9 & H10 & H11).
  repeat apply conj.
  - apply H1. left. vm_compute; reflexivity.
  - apply H2. vm_compute; reflexivity.
  - apply H3. vm_compute; reflexivity.
  - apply H4; vm_compute; reflexivity.
  - apply H5. vm_compute; reflexivity.
  - apply H6. vm_compute; reflexivity.
  - apply H7. vm_compute; congruence.
  - apply H8. vm_compute; reflexivity.
  - apply H9. vm_compute; reflexivity.
  - apply H10. vm_compute; reflexivity.
  - apply H11; vm_compute; congruence.
Defined.

(** C5 on the reference platform: [/ao/none] is not on the partition. *)
Lemma C5_witness :
  Flash.disk Flash.sample !! "/ao/none"%string = None /\
  (Arduino.stat "/ao/none" 4096 Flash.caller_mem Flash.sample).1.1 = -1 /\
  exists ret,
    EspIdf.stat "/ao/none" 4096 Flash.caller_mem Flash.sample
      = Some (ret, Flash.caller_mem, Flash.sample) /\ ret <> 0.
Proof.
  destruct (C5_stat_absent_path_fails
              (WA := Flash.world) (File := option string)
              (WE := Flash.world) (FILE := nat)) as (Ha & He).
  split; [vm_compute; reflexivity|]. split.
  - apply Ha. vm_compute; reflexivity.
  - apply He. vm_compute; congruence.
Defined.

(** C6 fails as stated: the platform opens the directory [/ao/logs], and
    the Arduino [open] returns null all the same. *)
Lemma C6_arduino_open_refuses_opened_directory :
  ~ (is_Some (Arduino.open "/ao/logs" "r" Flash.sample).1 <->
     Arduino.File_bool (Arduino.FS_open "/ao/logs" "r" Flash.sample).1
                       (Arduino.FS_open "/ao/logs" "r" Flash.sample).2
       = true).
Proof.
  intros [_ Hopen].
  assert (Hnone : (Arduino.open "/ao/logs" "r" Flash.sample).1 = None)
    by (vm_compute; reflexivity).
  rewrite Hnone in Hopen.
  destruct Hopen as [a Ha]; [vm_compute; reflexivity | discriminate Ha].
Qed.

(** C7 on the reference platform: two bytes read from, and two bytes
    written to, the open three-byte file. *)
Lemma C7_witness :
  (EspIdf.read Flash.handle 2 Flash.opened).1 = (2, [Byte.x7b; Byte.x7d]) /\
  (EspIdf.write Flash.handle [Byte.x5b; Byte.x5d] 2 Flash.opened_a).1 = 2 /\
  take 2 (drop 3
    (Flash.stream_data 0
       (EspIdf.write Flash.handle [Byte.x5b; Byte.x5d] 2 Flash.opened_a).2))
    = [Byte.x5b; Byte.x5d].
Proof.
  destruct (C7_read_write_return_counts (WE := Flash.world)
              Flash.stream_data Flash.read_pos Flash.write_pos
              Flash.handle [Byte.x5b; Byte.x5d] 2 Flash.opened
              flash_fread_contract flash_fwrite_contract
              ltac:(lia) ltac:(simpl; lia))
    as ((Hn & _ & Hdata & _) & _).
  destruct (C7_read_write_return_counts (WE := Flash.world)
              Flash.stream_data Flash.read_pos Flash.write_pos
              Flash.handle [Byte.x5b; Byte.x5d] 2 Flash.opened_a
              flash_fread_contract flash_fwrite_contract
              ltac:(lia) ltac:(simpl; lia))
    as (_ & (_ & Hput & _)).
  assert (Hw : (EspIdf.write Flash.handle [Byte.x5b; Byte.x5d] 2
                  Flash.opened_a).1 = 2) by (vm_compute; reflexivity).
  split; [|split; [exact Hw|]].
  - rewrite (surjective_pairing (EspIdf.read Flash.handle 2 Flash.opened).1).
    rewrite Hdata. vm_compute; reflexivity.
  - rewrite Hw in Hput. exact Hput.
Defined.

(** C8 on the reference platform: [/ao/logs] is a directory. *)
Lemma C8_witness :
  Flash.disk Flash.sample !! "/ao/logs"%string = Some Flash.Dir /\
  (Arduino.stat "/ao/logs" 4096 Flash.caller_mem Flash.sample).1.1 = -1 /\
  (Arduino.stat "/ao/logs" 4096 Flash.caller_mem Flash.sample).1.2
    = Flash.caller_mem /\
  (Arduino.open "/ao/logs" "r" Flash.sample).1 = None.
Proof.
  split; [vm_compute; reflexivity|].
  apply (C8_arduino_directory_is_absent
           (WA := Flash.world) (File := option string));
    vm_compute; reflexivity.
Defined.

(** C9 on the reference platform: access denied, and a required mount
    that fails. *)
Lemma C9_witness :
  (Arduino.makeDefaultFilesystemAdapter
     Arduino.ARDUINO_LITTLEFS Flash.cfg_deactivate Flash.sample).1 = None /\
  (Arduino.makeDefaultFilesystemAdapter
     Arduino.ARDUINO_LITTLEFS Flash.cfg_use_mount Flash.broken).1 = None /\
  (EspIdf.makeDefaultFilesystemAdapter
     "/ao" Flash.cfg_deactivate Flash.sample).1 = None /\
  (EspIdf.makeDefaultFilesystemAdapter
     "/ao" Flash.cfg_use_mount Flash.broken).1 = None /\
  (Flash.mounted Flash.unmounted = false /\
   Flash.mounted
     (Arduino.makeDefaultFilesystemAdapter
        Arduino.ARDUINO_LITTLEFS Flash.cfg_use_mount Flash.unmounted).2
     = true /\
   (Arduino.makeDefaultFilesystemAdapter
      Arduino.ARDUINO_LITTLEFS Flash.cfg_use_mount Flash.unmounted).2
     = (platform_mount Arduino.ARDUINO_LITTLEFS false Flash.unmounted).2) /\
  (Flash.mounted Flash.broken = false /\
   Flash.mounted
     (EspIdf.makeDefaultFilesystemAdapter
        "/ao" Flash.cfg_use_mount_format Flash.broken).2 = true /\
   (EspIdf.makeDefaultFilesystemAdapter
      "/ao" Flash.cfg_use_mount_format Flash.broken).2
     = (EspIdf.esp_vfs_spiffs_register
          (spiffs_conf "/ao" Flash.cfg_use_mount_format) Flash.broken).2).
Proof.
  destruct (C9_factory_null_or_valid
              (WA := Flash.world) (File := option string)
              (WE := Flash.world) (FILE := nat)
              Arduino.ARDUINO_LITTLEFS "/ao") as (Ha & He).
  repeat apply conj.
  - destruct (Ha Flash.cfg_deactivate Flash.sample) as (H1 & _).
    by rewrite H1.
  - destruct (Ha Flash.cfg_use_mount Flash.broken) as (_ & H2 & _).
    apply H2; vm_compute; reflexivity.
  - destruct (He Flash.cfg_deactivate Flash.sample) as (H1 & _).
    by rewrite H1.
  - destruct (He Flash.cfg_use_mount Flash.broken) as (_ & H2 & _).
    apply H2; vm_compute; congruence.
  - vm_compute; reflexivity.
  - vm_compute; reflexivity.
  - destruct (Ha Flash.cfg_use_mount Flash.unmounted) as (_ & _ & H3 & _).
    destruct (H3 _ _ (surjective_pairing _))
      as (_ & _ & _ & [[Hm _] | (_ & _ & Hw)]);
      [discriminate Hm | exact Hw].
  - vm_compute; reflexivity.
  - vm_compute; reflexivity.
  - destruct (He Flash.cfg_use_mount_format Flash.broken)
      as (_ & _ & H3 & _).
    destruct (H3 _ _ (surjective_pairing _))
      as (_ & _ & [[Hm _] | (_ & _ & Hw)]);
      [discriminate Hm | exact Hw].
Defined.

(** C10 on the reference platform: [stat] on a directory (Arduino) and
    on a missing path (ESP-IDF). *)
Lemma C10_witness :
  (Arduino.stat "/ao/logs" 4096 Flash.caller_mem Flash.sample).1.1 <> 0 /\
  (Arduino.stat "/ao/logs" 4096 Flash.caller_mem Flash.sample).1.2
    = Flash.caller_mem /\
  EspIdf.stat "/ao/none" 4096 Flash.caller_mem Flash.sample
    = Some (-1, Flash.caller_mem, Flash.sample) /\
  {[ 4096 := 7 ]} = Flash.caller_mem.
Proof.
  destruct (C10_stat_failure_leaves_size
              (WA := Flash.world) (File := option string)
              (WE := Flash.world) (FILE := nat)
              "/ao/logs" 4096 Flash.caller_mem) as (Ha & _).
  destruct (C10_stat_failure_leaves_size
              (WA := Flash.world) (File := option string)
              (WE := Flash.world) (FILE := nat)
              "/ao/none" 4096 Flash.caller_mem) as (_ & He).
  assert (Hs : (Arduino.stat "/ao/logs" 4096 Flash.caller_mem
                  Flash.sample).1.1 <> 0) by (vm_compute; congruence).
  assert (Hr : EspIdf.stat "/ao/none" 4096 Flash.caller_mem Flash.sample
                 = Some (-1, {[ 4096 := 7 ]}, Flash.sample))
    by (vm_compute; reflexivity).
  split; [exact Hs|]. split; [exact (Ha Flash.sample Hs)|].
  split; [vm_compute; reflexivity|].
  apply (He Flash.sample Flash.sample (-1) {[ 4096 := 7 ]} Hr). lia.
Defined.

(** * Further properties of the adapters *)

Section ArduinoLifecycle.
Context {W File : Type} `{!Arduino.ArduinoFS W File}.
Variable api : Arduino.FileApi.

(** The status [0] characterised by the answers of the platform. *)
Lemma arduino_stat_zero_cases path size (m : Memory.mem) (w : W) :
  (Arduino.stat path size m w).1.1 = 0 <->
  Arduino.FS_exists path w = true /\
  Arduino.File_bool (Arduino.FS_open path "r" w).1
                    (Arduino.FS_open path "r" w).2 = true /\
  Arduino.File_isFile (Arduino.FS_open path "r" w).1
                      (Arduino.FS_open path "r" w).2 = true.
Proof.
  unfold Arduino.stat.
  destruct (Arduino.FS_exists path w); simpl;
    [|split; [done | by intros ([=] & _)]].
  destruct (Arduino.FS_open path "r" w) as [f w1]; simpl.
  destruct (Arduino.File_bool f w1); simpl;
    [|split; [done | by intros (_ & [=] & _)]].
  destruct (Arduino.File_isFile f w1); simpl;
    [done | split; [done | by intros (_ & _ & [=])]].
Qed.

(** X1.  The Arduino [stat] returns [0] or [-1], and it returns [0]
    exactly when the platform reports the path as existing, opens it for
    reading, and the opened object is a regular file. *)
Theorem X1_arduino_stat_zero_iff path size (m : Memory.mem) (w : W) :
  ((Arduino.stat path size m w).1.1 = 0 \/
   (Arduino.stat path size m w).1.1 = -1) /\
  ((Arduino.stat path size m w).1.1 = 0 <->
     Arduino.FS_exists path w = true /\
     Arduino.File_bool (Arduino.FS_open path "r" w).1
                       (Arduino.FS_open path "r" w).2 = true /\
     Arduino.File_isFile (Arduino.FS_open path "r" w).1
                         (Arduino.FS_open path "r" w).2 = true).
Proof.
  split; [apply arduino_stat_status | apply arduino_stat_zero_cases].
Qed.

(** X2.  The Arduino [stat] and [open] agree on what a file is: [stat]
    returns [0] on a path exactly when the platform reports the path as
    existing and [open] for reading, from the same platform state, returns
    a handle. *)
Theorem X2_arduino_stat_zero_iff_open path size (m : Memory.mem) (w : W) :
  (Arduino.stat path size m w).1.1 = 0 <->
  Arduino.FS_exists path w = true /\
  is_Some (Arduino.open path "r" w).1.
Proof.
  rewrite arduino_stat_zero_cases. by rewrite arduino_open_some.
Qed.

(** X3.  A handle the Arduino [open] returns closes its file when it is
    destroyed in the state [open] left: the destructor's validity test
    holds for every handle [open] hands out. *)
Theorem X3_arduino_handle_closes fn mode (w w1 : W) a :
  Arduino.open fn mode w = (Some a, w1) ->
  Arduino.ArduinoFileAdapter_delete a w1 =
    Arduino.File_close (Arduino.FS_open fn mode w).1 w1.
Proof.
  unfold Arduino.open, Arduino.ArduinoFileAdapter_delete.
  destruct (Arduino.FS_open fn mode w) as [f w2]; simpl.
  destruct (Arduino.File_bool f w2) eqn:Hb; simpl; [|done].
  destruct (Arduino.File_isFile f w2); simpl; [|done].
  intros [= <- <-]. simpl. by rewrite Hb.
Qed.

(** X4.  When access is allowed, a mount is required and the mount fails,
    the Arduino factory returns null after destroying the adapter it
    built: the platform is left in the state [USE_FS.end()] produces from
    the state of the failed mount. *)
Theorem X4_arduino_factory_failed_mount_ends config (w : W) :
  accessAllowed config = true ->
  mustMount config = true ->
  (platform_mount api (formatOnFail config) w).1 = false ->
  Arduino.makeDefaultFilesystemAdapter api config w =
    (None,
     Arduino.FS_end (platform_mount api (formatOnFail config) w).2).
Proof.
  intros Ha Hm. unfold Arduino.makeDefaultFilesystemAdapter,
    Arduino.ArduinoFilesystemAdapter_new, Arduino.ArduinoFilesystemAdapter_bool,
    Arduino.ArduinoFilesystemAdapter_delete, platform_mount.
  rewrite Ha, Hm. simpl. destruct api.
  - destruct (Arduino.FS_begin (formatOnFail config) w) as [ok w1]; simpl.
    intros ->. simpl. by rewrite Hm.
  - destruct (Arduino.FS_begin0 _) as [ok w1]; simpl.
    intros ->. simpl. by rewrite Hm.
Qed.

(** X5.  An adapter the Arduino factory returns remembers whether it
    mounted: without a required mount the factory leaves the platform as
    it was and the destructor does nothing; with one, the factory leaves
    the state of the successful mount and the destructor calls
    [USE_FS.end()]. *)
Theorem X5_arduino_factory_destructor_pair config (w w1 w' : W) fs :
  Arduino.makeDefaultFilesystemAdapter api config w = (Some fs, w1) ->
  w1 = (if mustMount config
        then (platform_mount api (formatOnFail config) w).2 else w) /\
  Arduino.ArduinoFilesystemAdapter_delete fs w' =
    (if mustMount config then Arduino.FS_end w' else w').
Proof.
  unfold Arduino.makeDefaultFilesystemAdapter,
    Arduino.ArduinoFilesystemAdapter_new, Arduino.ArduinoFilesystemAdapter_bool,
    Arduino.ArduinoFilesystemAdapter_delete, platform_mount.
  destruct (accessAllowed config); simpl; [|done].
  destruct (mustMount config) eqn:Hm; simpl.
  - destruct api.
    + destruct (Arduino.FS_begin (formatOnFail config) w) as [[] w2];
        simpl; [|done].
      intros [= <- <-]. simpl. by rewrite Hm.
    + destruct (Arduino.FS_begin0 _) as [[] w2]; simpl; [|done].
      intros [= <- <-]. simpl. by rewrite Hm.
  - intros [= <- <-]. simpl. by rewrite Hm.
Qed.

(** X13.  The Arduino [stat] closes the file it opened, regular file or
    not: when the platform reports the path as existing and the open gives
    a valid [File], the platform is left in the state [f.close()] produces
    from the state of the open. *)
Theorem X13_arduino_stat_closes_file path size (m : Memory.mem) (w : W) :
  Arduino.FS_exists path w = true ->
  Arduino.File_bool (Arduino.FS_open path "r" w).1
                    (Arduino.FS_open path "r" w).2 = true ->
  (Arduino.stat path size m w).2 =
    Arduino.File_close (Arduino.FS_open path "r" w).1
                       (Arduino.FS_open path "r" w).2.
Proof.
  unfold Arduino.stat. intros ->.
  destruct (Arduino.FS_open path "r" w) as [f w1]; simpl.
  intros ->. simpl. by destruct (Arduino.File_isFile f w1).
Qed.

End ArduinoLifecycle.

Section EspIdfLifecycle.
Context {W FILE : Type} `{!EspIdf.EspIdfFS W FILE}.
Variable prefix : string.

(** X6.  The ESP-IDF [stat] faults exactly when [::stat] succeeds and
    [size] points to no object: a failing [stat] never looks at the
    pointer, a succeeding one needs it valid. *)
Theorem X6_espidf_stat_fault_iff path size (m : Memory.mem) (w : W) :
  EspIdf.stat path size m w = None <->
  (EspIdf.sys_stat path w).1 = 0 /\ m !! size = None.
Proof.
  unfold EspIdf.stat, Memory.store.
  destruct (EspIdf.sys_stat path w) as [ret st]; simpl.
  destruct (decide (ret = 0)) as [Hr|Hr].
  - destruct (m !! size); split; try done. by intros [_ [=]].
  - split; [done|]. by intros [? _].
Qed.

(** X7.  When the ESP-IDF [stat] returns [0], the object at [size] holds
    [st_size] reduced to [size_t] (which is [st_size] itself when that
    fits), every other object of the caller's memory is as before, and the
    platform state is as before. *)
Theorem X7_espidf_stat_success_frame
  path size (m m' : Memory.mem) (w w' : W) ret :
  EspIdf.stat path size m w = Some (ret, m', w') ->
  ret = 0 ->
  m' !! size =
    Some (Machine.to_size_t (EspIdf.st_size (EspIdf.sys_stat path w).2)) /\
  (0 <= EspIdf.st_size (EspIdf.sys_stat path w).2 <= Machine.SIZE_MAX ->
   m' !! size = Some (EspIdf.st_size (EspIdf.sys_stat path w).2)) /\
  (forall q, q <> size -> m' !! q = m !! q) /\
  w' = w.
Proof.
  unfold EspIdf.stat.
  destruct (EspIdf.sys_stat path w) as [r st]; simpl.
  destruct (decide (r = 0)) as [Hr|Hr]; [|by intros [= <- _ _] ->].
  destruct (Memory.store size _ m) as [m1|] eqn:Hst; [|done].
  intros [= _ <- <-] _.
  pose proof (store_lookup _ _ _ _ Hst) as Hl.
  split; [done|]. split.
  - intros Hfit. by rewrite Hl, to_size_t_small.
  - split; [|done]. intros q Hq. by apply (store_frame _ _ _ _ _ Hst).
Qed.

(** X8.  The ESP-IDF [stat] is idempotent: repeated on the memory and
    platform state it produced, it returns the same status and changes
    nothing. *)
Theorem X8_espidf_stat_idempotent
  path size (m m' : Memory.mem) (w w' : W) ret :
  EspIdf.stat path size m w = Some (ret, m', w') ->
  EspIdf.stat path size m' w' = Some (ret, m', w').
Proof.
  unfold EspIdf.stat, Memory.store.
  destruct (EspIdf.sys_stat path w) as [r st] eqn:Hs; simpl.
  destruct (decide (r = 0)) as [Hr|Hr].
  - destruct (m !! size) eqn:Hm; [|done].
    intros [= <- <- <-]. rewrite Hs. simpl.
    destruct (decide (r = 0)); [|done].
    rewrite lookup_insert_eq. by rewrite insert_insert_eq.
  - intros [= <- <- <-]. rewrite Hs. simpl.
    by destruct (decide (r = 0)).
Qed.

(** X9.  The result of [seek] tells success from failure: for every [int]
    that [fseek] can return, [seek] returns [0] exactly when [fseek]
    returned [0]. *)
Theorem X9_espidf_seek_zero_iff
  (a : EspIdf.EspIdfFileAdapter FILE) offset (w w1 : W) r :
  EspIdf.c_fseek (EspIdf.file a) (Machine.to_long offset) w = (r, w1) ->
  - 2 ^ 31 <= r < 2 ^ 31 ->
  ((EspIdf.seek a offset w).1 = 0 <-> r = 0).
Proof.
  intros Hs Hr. rewrite espidf_seek_result, Hs. simpl.
  unfold Machine.to_size_t, Machine.SIZE_BITS. split.
  - intros Hz. apply Z.mod_divide in Hz; [|lia].
    destruct Hz as [k Hk]. lia.
  - by intros ->.
Qed.

(** X10.  The offset [fseek] receives: an offset below [2^31] is passed as
    it is; a larger [size_t] offset reaches [fseek] as the negative [long]
    [offset - 2^32]. *)
Theorem X10_espidf_seek_offset_passed
  (a : EspIdf.EspIdfFileAdapter FILE) offset (w : W) :
  0 <= offset <= Machine.SIZE_MAX ->
  let passed := if offset <? 2 ^ 31 then offset else offset - 2 ^ 32 in
  EspIdf.seek a offset w =
    (Machine.to_size_t (EspIdf.c_fseek (EspIdf.file a) passed w).1,
     (EspIdf.c_fseek (EspIdf.file a) passed w).2) /\
  (2 ^ 31 <= offset -> passed < 0).
Proof.
  intros Ho passed. rewrite espidf_seek_result.
  assert (Hp : Machine.to_long offset = passed).
  { unfold passed, Machine.to_long, Machine.SIZE_MAX, Machine.SIZE_BITS in *.
    destruct (Z.ltb_spec offset (2 ^ 31)).
    - rewrite Z.mod_small; lia.
    - replace (offset + 2 ^ (32 - 1)) with (offset - 2 ^ 31 + 1 * 2 ^ 32)
        by lia.
      rewrite Z.mod_add by lia. rewrite Z.mod_small; lia. }
  rewrite Hp. split; [done|].
  unfold passed. intros Hbig.
  destruct (Z.ltb_spec offset (2 ^ 31)); [lia|].
  unfold Machine.SIZE_MAX, Machine.SIZE_BITS in Ho. lia.
Qed.

(** X11.  An adapter the ESP-IDF factory returns remembers whether it
    registered: without a required mount the factory leaves the platform
    as it was and the destructor does nothing; with one, the factory leaves
    the state of the registration and the destructor unregisters the
    partition label that was registered. *)
Theorem X11_espidf_factory_destructor_pair config (w w1 w' : W) fs :
  EspIdf.makeDefaultFilesystemAdapter prefix config w = (Some fs, w1) ->
  w1 = (if mustMount config
        then (EspIdf.esp_vfs_spiffs_register
                (spiffs_conf prefix config) w).2
        else w) /\
  EspIdf.EspIdfFilesystemAdapter_delete fs w' =
    (if mustMount config
     then EspIdf.esp_vfs_spiffs_unregister
            (EspIdf.partition_label (spiffs_conf prefix config)) w'
     else w').
Proof.
  unfold EspIdf.makeDefaultFilesystemAdapter,
    EspIdf.EspIdfFilesystemAdapter_delete, spiffs_conf.
  destruct (accessAllowed config); simpl; [|done].
  destruct (mustMount config) eqn:Hm; simpl.
  - destruct (EspIdf.esp_vfs_spiffs_register _ w) as [r w2]; simpl.
    destruct (decide (r = EspIdf.ESP_OK)); [|done].
    intros [= <- <-]. simpl. by rewrite Hm.
  - intros [= <- <-]. simpl. by rewrite Hm.
Qed.

(** X12.  When access is allowed, a mount is required and the
    registration does not return [ESP_OK], the ESP-IDF factory returns
    null and leaves the platform in the state of the failed registration:
    no unregistration follows. *)
Theorem X12_espidf_factory_failed_mount config (w : W) :
  accessAllowed config = true ->
  mustMount config = true ->
  (EspIdf.esp_vfs_spiffs_register (spiffs_conf prefix config) w).1
    <> EspIdf.ESP_OK ->
  EspIdf.makeDefaultFilesystemAdapter prefix config w =
    (None,
     (EspIdf.esp_vfs_spiffs_register (spiffs_conf prefix config) w).2).
Proof.
  intros Ha Hm. unfold EspIdf.makeDefaultFilesystemAdapter, spiffs_conf.
  rewrite Ha, Hm. simpl.
  destruct (EspIdf.esp_vfs_spiffs_register _ w) as [r w1]; simpl.
  intros Hr. by destruct (decide (r = EspIdf.ESP_OK)).
Qed.

End EspIdfLifecycle.

(** ** The further properties on the reference platform *)

(** X3 on the reference platform: the handle on [/ao/cfg.jsn]. *)
Lemma X3_witness :
  Arduino.open "/ao/cfg.jsn" "r" Flash.sample
    = (Some {| Arduino.file := Some "/ao/cfg.jsn"%string |}, Flash.sample) /\
  Arduino.ArduinoFileAdapter_delete
    {| Arduino.file := Some "/ao/cfg.jsn"%string |} Flash.sample
    = Arduino.File_close
        (Arduino.FS_open "/ao/cfg.jsn" "r" Flash.sample).1 Flash.sample.
Proof.
  assert (Ho : Arduino.open "/ao/cfg.jsn" "r" Flash.sample
               = (Some {| Arduino.file := Some "/ao/cfg.jsn"%string |},
                  Flash.sample)) by (vm_compute; reflexivity).
  split; [exact Ho|].
  exact (X3_arduino_handle_closes (W := Flash.world) _ _ _ _ _ Ho).
Defined.

(** X4 on the reference platform: a broken partition, no formatting. *)
Lemma X4_witness :
  Arduino.makeDefaultFilesystemAdapter
    Arduino.ARDUINO_SPIFFS Flash.cfg_use_mount Flash.broken
  = (None,
     Arduino.FS_end
       (platform_mount Arduino.ARDUINO_SPIFFS
          (formatOnFail Flash.cfg_use_mount) Flash.broken).2).
Proof.
  apply (X4_arduino_factory_failed_mount_ends
           (W := Flash.world) (File := option string));
    vm_compute; reflexivity.
Defined.

(** X5 on the reference platform: no mount required. *)
Lemma X5_witness :
  Arduino.makeDefaultFilesystemAdapter
    Arduino.ARDUINO_LITTLEFS Flash.cfg_use Flash.sample
  = (Some {| Arduino.valid := true; Arduino.config := Flash.cfg_use |},
     Flash.sample) /\
  Arduino.ArduinoFilesystemAdapter_delete
    {| Arduino.valid := true; Arduino.config := Flash.cfg_use |}
    Flash.broken = Flash.broken.
Proof.
  split; [reflexivity|].
  exact (proj2 (X5_arduino_factory_destructor_pair
                  (W := Flash.world) (File := option string)
                  Arduino.ARDUINO_LITTLEFS Flash.cfg_use
                  Flash.sample Flash.sample Flash.broken
                  {| Arduino.valid := true; Arduino.config := Flash.cfg_use |}
                  eq_refl)).
Defined.

(** X7 and X8 on the reference platform: [stat] on the three-byte file. *)
Lemma X7_witness :
  (<[4096 := 3]> Flash.caller_mem : Memory.mem) !! 4096 = Some 3 /\
  (forall q, q <> 4096 ->
     (<[4096 := 3]> Flash.caller_mem : Memory.mem) !! q
       = Flash.caller_mem !! q).
Proof.
  assert (Hs : EspIdf.stat "/ao/cfg.jsn" 4096 Flash.caller_mem Flash.sample
               = Some (0, <[4096 := 3]> Flash.caller_mem, Flash.sample))
    by (vm_compute; reflexivity).
  destruct (X7_espidf_stat_success_frame (W := Flash.world)
              _ _ _ _ _ _ _ Hs eq_refl) as (_ & Hv & Hf & _).
  split; [apply Hv; vm_compute; split; congruence | exact Hf].
Defined.

Lemma X8_witness :
  EspIdf.stat "/ao/cfg.jsn" 4096
    (<[4096 := 3]> Flash.caller_mem) Flash.sample
  = Some (0, <[4096 := 3]> Flash.caller_mem, Flash.sample).
Proof.
  apply (X8_espidf_stat_idempotent (W := Flash.world)
           "/ao/cfg.jsn" 4096 Flash.caller_mem
           (<[4096 := 3]> Flash.caller_mem) Flash.sample Flash.sample 0).
  vm_compute; reflexivity.
Defined.

(** X9 and X10 on the reference platform: seeking the open stream. *)
Lemma X9_witness :
  (EspIdf.seek Flash.handle 2 Flash.opened).1 = 0 <-> 0 = 0.
Proof.
  apply (X9_espidf_seek_zero_iff (W := Flash.world)
           Flash.handle 2 Flash.opened (Flash.fseek 0 2 Flash.opened).2 0).
  - vm_compute; reflexivity.
  - lia.
Defined.

Lemma X10_witness :
  EspIdf.seek Flash.handle 4294967295 Flash.opened
    = (Machine.to_size_t (Flash.fseek 0 (-1) Flash.opened).1,
       (Flash.fseek 0 (-1) Flash.opened).2) /\
  (EspIdf.seek Flash.handle 4294967295 Flash.opened).1 = Machine.SIZE_MAX.
Proof.
  destruct (X10_espidf_seek_offset_passed (W := Flash.world)
              Flash.handle 4294967295 Flash.opened) as (Hs & _).
  - vm_compute; split; congruence.
  - split; [exact Hs|]. rewrite Hs. vm_compute; reflexivity.
Defined.

(** X11 on the reference platform: a sound partition is registered. *)
Lemma X11_witness :
  (Flash.mount false Flash.sample).2
    = (EspIdf.esp_vfs_spiffs_register
         (spiffs_conf "/ao" Flash.cfg_use_mount) Flash.sample).2 /\
  EspIdf.EspIdfFilesystemAdapter_delete
    {| EspIdf.config := Flash.cfg_use_mount |} Flash.sample
    = Flash.set_mounted false Flash.sample.
Proof.
  exact (X11_espidf_factory_destructor_pair (W := Flash.world) (FILE := nat)
           "/ao" Flash.cfg_use_mount Flash.sample
           (Flash.mount false Flash.sample).2 Flash.sample
           {| EspIdf.config := Flash.cfg_use_mount |} eq_refl).
Defined.

(** X12 on the reference platform: a broken partition, no formatting. *)
Lemma X12_witness :
  EspIdf.makeDefaultFilesystemAdapter "/ao" Flash.cfg_use_mount Flash.broken
  = (None, Flash.broken).
Proof.
  rewrite (X12_espidf_factory_failed_mount (W := Flash.world) (FILE := nat));
    vm_compute; congruence.
Defined.

(** X13 on the reference platform: [stat] on the directory [/ao/logs]. *)
Lemma X13_witness :
  (Arduino.stat "/ao/logs" 4096 Flash.caller_mem Flash.sample).2
    = Flash.sample.
Proof.
  rewrite (X13_arduino_stat_closes_file
             (W := Flash.world) (File := option string));
    vm_compute; reflexivity.
Defined.
